(** * Moderation relay service: a shallow embedding of [app.py] and [main.py]

    The Flask application exposes [POST /contenttextsafety], which validates
    a JSON body, reads two credentials from the process environment, performs
    one call to the Azure Content Safety service and reshapes the answer.

    The embedding keeps the effects of the Python code explicit: every
    computation returns the list of events it performed (environment reads,
    printed lines, the outbound call) together with either a value or a
    raised exception. *)

From Stdlib Require Import ZArith String Ascii SpecFloat.
From stdpp Require Import gmap strings list fin_maps.

Set Warnings "-register-all".
Local Open Scope string_scope.
Local Open Scope Z_scope.

(** ** Python values *)

Module Py.

(** Values that [json.loads] produces and [jsonify] consumes.  A [dict] is a
    finite map on its string keys; a float is kept as its IEEE-754 datum. *)
Inductive pyval :=
| PNone
| PBool (b : bool)
| PInt (n : Z)
| PFloat (f : spec_float)
| PStr (s : string)
| PList (l : list pyval)
| PDict (d : gmap string pyval).

(** Truth value of an object, as [not x] and [if x] test it. *)
Definition truthy (v : pyval) : bool :=
  match v with
  | PNone => false
  | PBool b => b
  | PInt n => negb (n =? 0)
  | PFloat f => match f with S754_zero _ => false | _ => true end
  | PStr s => negb (String.eqb s "")
  | PList l => match l with [] => false | _ :: _ => true end
  | PDict d => negb (bool_decide (d = ∅))
  end.

Definition str_truthy (s : string) : bool := negb (String.eqb s "").

(** [needle in hay] on strings: substring search. *)
Fixpoint str_contains (needle hay : string) : bool :=
  String.prefix needle hay ||
  match hay with
  | EmptyString => false
  | String _ hay' => str_contains needle hay'
  end.

Definition is_str (k : string) (v : pyval) : bool :=
  match v with
  | PStr s => String.eqb s k
  | _ => false
  end.

Definition type_name (v : pyval) : string :=
  match v with
  | PNone => "NoneType"
  | PBool _ => "bool"
  | PInt _ => "int"
  | PFloat _ => "float"
  | PStr _ => "str"
  | PList _ => "list"
  | PDict _ => "dict"
  end.

(** [s[:n]] *)
Definition str_take (n : nat) (s : string) : string := String.substring 0 n s.

(** [str], rendered for an f-string: an optional string ([None] prints as
    its name). *)
Definition fmt_opt (o : option string) : string :=
  match o with
  | Some s => s
  | None => "None"
  end.

Definition py_of_opt_str (o : option string) : pyval :=
  match o with
  | Some s => PStr s
  | None => PNone
  end.

Definition py_of_opt_int (o : option Z) : pyval :=
  match o with
  | Some n => PInt n
  | None => PNone
  end.

End Py.

Import Py.

(** ** The Azure SDK objects the application touches *)

Module Azure.

(** [azure.ai.contentsafety.models.TextCategory], a string enumeration. *)
Inductive TextCategory := HATE | SELF_HARM | SEXUAL | VIOLENCE.

Definition TextCategory_value (c : TextCategory) : string :=
  match c with
  | HATE => "Hate"
  | SELF_HARM => "SelfHarm"
  | SEXUAL => "Sexual"
  | VIOLENCE => "Violence"
  end.

(** One entry of [categories_analysis]: the category identifier the service
    sent (any string) and its optional integer severity. *)
Record TextCategoriesAnalysis := {
  category : string;
  severity : option Z
}.

Record AnalyzeTextResult := {
  categories_analysis : list TextCategoriesAnalysis
}.

(** The structured error an [HttpResponseError] may carry in [e.error]. *)
Record ODataV4Format := {
  code : option string;
  message : option string
}.

End Azure.

Import Azure.

(** ** Exceptions, events and computations *)

Module Eff.

(** Exceptions (instances of Python's [Exception]) that the request path
    can meet.  [HttpResponseError] carries the text that [str(e)] shows and
    the optional structured [e.error]. *)
Inductive exn :=
| HttpResponseError (msg : string) (error : option ODataV4Format)
| TypeError (msg : string)
| KeyError (key : string)
| BadRequest (description : string)
| OtherException (msg : string).

(** [str(e)] *)
Definition str_exn (e : exn) : string :=
  match e with
  | HttpResponseError msg _ => msg
  | TypeError msg => msg
  | KeyError key => "'" +:+ key +:+ "'"
  | BadRequest description => "400 Bad Request: " +:+ description
  | OtherException msg => msg
  end.

(** What the process does to the outside world, in program order. *)
Inductive event :=
| EnvRead (name : string)
| Print (line : string)
| PrintObj (shown : option TextCategoriesAnalysis)
| Outbound (endpoint key : string) (text : pyval).

Inductive outcome (A : Type) :=
| Return (a : A)
| Raise (e : exn).
Arguments Return {A} a.
Arguments Raise {A} e.

(** A computation: the events it performed and how it ended. *)
Definition M (A : Type) : Type := list event * outcome A.

Definition ret {A} (a : A) : M A := ([], Return a).

Definition bind {A B} (m : M A) (f : A -> M B) : M B :=
  match m with
  | (t, Return a) => let '(t', r) := f a in ((t ++ t')%list, r)
  | (t, Raise e) => (t, Raise e)
  end.

(** [try: m  except Exception as e: h e] *)
Definition try_except {A} (m : M A) (h : exn -> M A) : M A :=
  match m with
  | (t, Return a) => (t, Return a)
  | (t, Raise e) => let '(t', r) := h e in ((t ++ t')%list, r)
  end.

Definition lift {A} (o : outcome A) : M A := ([], o).

Definition emit (ev : event) : M unit := ([ev], Return tt).

Definition print (line : string) : M unit := emit (Print line).

Definition trace {A} (m : M A) : list event := fst m.
Definition result {A} (m : M A) : outcome A := snd m.

(** [k in v] for a string [k]: key membership on a dict, element
    membership on a list, substring on a string, [TypeError] otherwise
    (messages as CPython 3.11 words them). *)
Definition py_contains (k : string) (v : pyval) : outcome bool :=
  match v with
  | PDict d => Return (bool_decide (is_Some (d !! k)))
  | PList l => Return (existsb (is_str k) l)
  | PStr s => Return (str_contains k s)
  | _ => Raise (TypeError ("argument of type '" +:+ type_name v +:+ "' is not iterable"))
  end.

(** [v[k]] for a string [k]. *)
Definition py_getitem (v : pyval) (k : string) : outcome pyval :=
  match v with
  | PDict d =>
      match d !! k with
      | Some x => Return x
      | None => Raise (KeyError k)
      end
  | PList _ => Raise (TypeError "list indices must be integers or slices, not str")
  | PStr _ => Raise (TypeError "string indices must be integers, not 'str'")
  | _ => Raise (TypeError ("'" +:+ type_name v +:+ "' object is not subscriptable"))
  end.

End Eff.

Import Eff.

Declare Scope py_scope.
Delimit Scope py_scope with py.
Notation "x <- m ;; k" := (bind m (fun x => k))
  (at level 100, m at next level, right associativity) : py_scope.
Notation "m ;;; k" := (bind m (fun _ => k))
  (at level 100, right associativity) : py_scope.
Local Open Scope py_scope.

(** ** The application ([app.py]) *)

Module App.

(** Everything outside the handler that a request depends on: the process
    environment, what [request.get_json()] gives for the posted body, and
    how the service answers the single [client.analyze_text] call made with
    a given endpoint, key and text. *)
Record world := {
  environ : gmap string string;
  request_get_json : outcome pyval;
  client_analyze_text : string -> string -> pyval -> outcome AnalyzeTextResult
}.

(** [os.environ.get(name)] *)
Definition os_environ_get (env : gmap string string) (name : string)
  : M (option string) :=
  emit (EnvRead name) ;;; ret (env !! name).

(** [os.environ.get(name, default)] *)
Definition os_environ_get_default (env : gmap string string)
  (name fallback : string) : M string :=
  emit (EnvRead name) ;;; ret (default fallback (env !! name)).

Definition jsonify (v : pyval) : pyval := v.

(** [next((item for item in l if item.category == c), None)] *)
Definition next_category (c : TextCategory) (l : list TextCategoriesAnalysis)
  : option TextCategoriesAnalysis :=
  List.find (fun item => String.eqb (category item) (TextCategory_value c)) l.

(** [{"severity": r.severity} if r else None]; an SDK entry that was found
    is a non-empty object and therefore true. *)
Definition severity_or_None (r : option TextCategoriesAnalysis) : pyval :=
  match r with
  | Some item => PDict {[ "severity" := py_of_opt_int (severity item) ]}
  | None => PNone
  end.

Definition is_not_None (v : pyval) : bool :=
  match v with
  | PNone => false
  | _ => true
  end.

(** The [results] dictionary of lines 69-77: four keys, then the entries
    whose value is [None] are filtered out. *)
Definition build_results
  (hate_result self_harm_result sexual_result violence_result
     : option TextCategoriesAnalysis) : gmap string pyval :=
  let results : gmap string pyval :=
    <["violence" := severity_or_None violence_result]>
      (<["sexual" := severity_or_None sexual_result]>
        (<["selfHarm" := severity_or_None self_harm_result]>
          (<["hate" := severity_or_None hate_result]> ∅))) in
  filter (λ kv : string * pyval, is_not_None kv.2) results.

(** The response normalizer as a function of the raw response. *)
Definition normalize (response : AnalyzeTextResult) : gmap string pyval :=
  let l := categories_analysis response in
  build_results (next_category HATE l) (next_category SELF_HARM l)
    (next_category SEXUAL l) (next_category VIOLENCE l).

Definition credentials_error : string :=
  "Azure Content Safety credentials not configured. " +:+
  "Set CONTENT_SAFETY_KEY and CONTENT_SAFETY_ENDPOINT environment variables.".

(** [key[:5] if key else 'Not found'] *)
Definition key_shown (key : option string) : string :=
  match key with
  | Some k => if str_truthy k then str_take 5 k else "Not found"
  | None => "Not found"
  end.

(** Lines 48-82: client creation and the one outbound call, then the
    reshaping of its answer. *)
Definition call_and_normalize (w : world) (endpoint key : string)
  (text : pyval) : M (pyval * Z) :=
  emit (Outbound endpoint key text) ;;;
  response <- lift (client_analyze_text w endpoint key text) ;;
  let l := categories_analysis response in
  let hate_result := next_category HATE l in
  let self_harm_result := next_category SELF_HARM l in
  let sexual_result := next_category SEXUAL l in
  let violence_result := next_category VIOLENCE l in
  emit (PrintObj hate_result) ;;;
  let results :=
    build_results hate_result self_harm_result sexual_result violence_result in
  ret (PDict (<["results" := PDict results]> {[ "text" := text ]}), 200).

Definition analyze_content_safety (w : world) (text : pyval) : M (pyval * Z) :=
  try_except
    (key <- os_environ_get (environ w) "CONTENT_SAFETY_KEY" ;;
     endpoint <- os_environ_get (environ w) "CONTENT_SAFETY_ENDPOINT" ;;
     print ("API Key (first 5 chars): " +:+ key_shown key) ;;;
     print ("Endpoint: " +:+ fmt_opt endpoint) ;;;
     match key, endpoint with
     | Some k, Some ep =>
         if negb (str_truthy k) || negb (str_truthy ep)
         then ret (PDict {[ "error" := PStr credentials_error ]}, 500)
         else call_and_normalize w ep k text
     | _, _ => ret (PDict {[ "error" := PStr credentials_error ]}, 500)
     end)
    (fun e =>
       print ("Error in analyze_content_safety: " +:+ str_exn e) ;;;
       ret (PDict {[ "error" := PStr (str_exn e) ]}, 500)).

(** The [except HttpResponseError] clause of the route. *)
Definition api_error_response (error : option ODataV4Format) : pyval :=
  let details : gmap string pyval :=
    match error with
    | Some err =>
        <["message" := py_of_opt_str (message err)]>
          {[ "code" := py_of_opt_str (code err) ]}
    | None => ∅
    end in
  PDict (<["details" := PDict details]>
           {[ "error" := PStr "Azure Content Safety API error" ]}).

Definition content_text_safety (w : world) : M (pyval * Z) :=
  try_except
    (request_data <- lift (request_get_json w) ;;
     invalid <- (if negb (truthy request_data) then ret true
                 else has <- lift (py_contains "text" request_data) ;;
                      ret (negb has)) ;;
     if (invalid : bool)
     then ret (jsonify (PDict {[ "error" := PStr "Request must include 'text' field" ]}), 400)
     else
       text_to_analyze <- lift (py_getitem request_data "text") ;;
       r <- analyze_content_safety w text_to_analyze ;;
       let '(result, status_code) := r in
       ret (jsonify result, status_code))
    (fun e =>
       match e with
       | HttpResponseError _ error => ret (jsonify (api_error_response error), 500)
       | _ =>
           let error_msg := str_exn e in
           print ("Error in content_text_safety: " +:+ error_msg) ;;;
           ret (jsonify (PDict {[ "error" := PStr error_msg ]}), 500)
       end).

(** The start-up banner ([main.py] lines 13-18, and the same lines under
    [__main__] in [app.py]). *)
Definition startup_banner (env : gmap string string) : M unit :=
  key <- os_environ_get_default env "CONTENT_SAFETY_KEY" "Not found" ;;
  endpoint <- os_environ_get_default env "CONTENT_SAFETY_ENDPOINT" "Not found" ;;
  print "Loaded environment variables:" ;;;
  print ("CONTENT_SAFETY_KEY: " +:+ str_take 5 key +:+ "... (truncated)") ;;;
  print ("CONTENT_SAFETY_ENDPOINT: " +:+ endpoint).

End App.

Import App.

(** ** Reading a computation *)

Definition KEY : string := "CONTENT_SAFETY_KEY".
Definition ENDPOINT : string := "CONTENT_SAFETY_ENDPOINT".

(** The credentials as [analyze_content_safety] accepts them: both
    variables set and non-empty. *)
Definition credentials (env : gmap string string) : option (string * string) :=
  match env !! KEY, env !! ENDPOINT with
  | Some k, Some ep =>
      if str_truthy k && str_truthy ep then Some (k, ep) else None
  | _, _ => None
  end.

Definition unset_or_empty (o : option string) : Prop :=
  o = None \/ o = Some "".

Definition is_outbound (ev : event) : bool :=
  match ev with
  | Outbound _ _ _ => true
  | _ => false
  end.

Definition is_printed (ev : event) : bool :=
  match ev with
  | Print _ | PrintObj _ => true
  | _ => false
  end.

(** What reaches the diagnostic output. *)
Definition printed {A} (m : M A) : list event :=
  List.filter is_printed (trace m).

(** The outbound calls a computation made. *)
Definition outbound_calls {A} (m : M A) : list event :=
  List.filter is_outbound (trace m).

(** The events that precede the credential check. *)
Definition preamble (env : gmap string string) : list event :=
  [EnvRead KEY; EnvRead ENDPOINT;
   Print ("API Key (first 5 chars): " +:+ key_shown (env !! KEY));
   Print ("Endpoint: " +:+ fmt_opt (env !! ENDPOINT))].

Definition result_key (c : TextCategory) : string :=
  match c with
  | HATE => "hate"
  | SELF_HARM => "selfHarm"
  | SEXUAL => "sexual"
  | VIOLENCE => "violence"
  end.

(** Runs the monadic steps of a computation without unfolding the maps. *)
Ltac run :=
  cbn [bind try_except emit ret lift print trace result
       app fst snd negb orb andb jsonify].

(** The body of the HTTP 400 answer of line 101. *)
Definition missing_text_error : pyval :=
  PDict {[ "error" := PStr "Request must include 'text' field" ]}.

(** What the generic handler of lines 122-125 prints and answers for an
    exception that is not an [HttpResponseError]. *)
Definition generic_error (e : exn) : M (pyval * Z) :=
  ([Print ("Error in content_text_safety: " +:+ str_exn e)],
   Return (PDict {[ "error" := PStr (str_exn e) ]}, 500)).

(** A raw answer with hate at severity 2, violence at severity 0 and no
    entry for the other two categories, and a service that gives it. *)
Definition example_response : AnalyzeTextResult :=
  {| categories_analysis :=
       [ {| category := "Hate"; severity := Some 2 |};
         {| category := "Violence"; severity := Some 0 |} ] |}.

Definition example_service : string -> string -> pyval -> outcome AnalyzeTextResult :=
  fun _ _ _ => Return example_response.

Definition example_env : gmap string string :=
  <["CONTENT_SAFETY_KEY" := "0123456789abcdef"]>
    {[ "CONTENT_SAFETY_ENDPOINT" := "https://example.cognitiveservices.azure.com" ]}.

Definition failing_service : string -> string -> pyval -> outcome AnalyzeTextResult :=
  fun _ _ _ =>
    Raise (HttpResponseError
             "(InvalidRequestBody) The request body is invalid."
             (Some {| code := Some "InvalidRequestBody";
                      message := Some "The request body is invalid." |})).

(** The lookup made for a category. *)
Definition selected
  (hate_result self_harm_result sexual_result violence_result
     : option TextCategoriesAnalysis) (c : TextCategory)
  : option TextCategoriesAnalysis :=
  match c with
  | HATE => hate_result
  | SELF_HARM => self_harm_result
  | SEXUAL => sexual_result
  | VIOLENCE => violence_result
  end.

Definition hello_body : pyval := PDict {[ "text" := PStr "hello" ]}.

Definition success_world : world :=
  {| environ := example_env;
     request_get_json := Return hello_body;
     client_analyze_text := example_service |}.

Definition failing_world : world :=
  {| environ := example_env;
     request_get_json := Return hello_body;
     client_analyze_text := failing_service |}.

Definition unconfigured_world : world :=
  {| environ := {[ "CONTENT_SAFETY_ENDPOINT" := "https://example.cognitiveservices.azure.com" ]};
     request_get_json := Return hello_body;
     client_analyze_text := example_service |}.

Definition null_text_world : world :=
  {| environ := example_env;
     request_get_json := Return (PDict {[ "text" := PNone ]});
     client_analyze_text := example_service |}.

(** The lines [analyze_content_safety] prints after the two credential
    lines. *)
Definition later_lines (w : world) (text : pyval) : list event :=
  match credentials (environ w) with
  | Some (k, ep) =>
      match client_analyze_text w ep k text with
      | Return response =>
          [PrintObj (next_category HATE (categories_analysis response))]
      | Raise e => [Print ("Error in analyze_content_safety: " +:+ str_exn e)]
      end
  | None => []
  end.

Definition short_key_env : gmap string string :=
  <["CONTENT_SAFETY_KEY" := "abc"]>
    {[ "CONTENT_SAFETY_ENDPOINT" := "https://example.cognitiveservices.azure.com" ]}.

Definition short_key_world : world :=
  {| environ := short_key_env;
     request_get_json := Return hello_body;
     client_analyze_text := example_service |}.


Definition null_severity_response : AnalyzeTextResult :=
  {| categories_analysis := [ {| category := "Hate"; severity := None |} ] |}.

(** A raw answer whose null severity is not at the head of the list, and
    whose category has a later entry as well. *)
Definition late_null_response : AnalyzeTextResult :=
  {| categories_analysis :=
       [ {| category := "Hate"; severity := Some 0 |};
         {| category := "SelfHarm"; severity := None |};
         {| category := "SelfHarm"; severity := Some 4 |} ] |}.




(** ** Further observations *)

Definition is_env_read (ev : event) : bool :=
  match ev with
  | EnvRead _ => true
  | _ => false
  end.

(** The environment reads a computation made. *)
Definition env_reads {A} (m : M A) : list event :=
  List.filter is_env_read (trace m).

Definition is_http_response_error (e : exn) : bool :=
  match e with
  | HttpResponseError _ _ => true
  | _ => false
  end.

(** The status code of the response a computation returned. *)
Definition status_of (m : M (pyval * Z)) : option Z :=
  match result m with
  | Return (_, status) => Some status
  | Raise _ => None
  end.

(** The body passes the guard of line 100 towards the rejection. *)
Definition rejected_by_guard (v : pyval) : Prop :=
  truthy v = false \/ py_contains "text" v = Return false.

(** The entry is for one of the four categories the application looks up. *)
Definition known_category (item : TextCategoriesAnalysis) : bool :=
  String.eqb (category item) (TextCategory_value HATE)
  || String.eqb (category item) (TextCategory_value SELF_HARM)
  || String.eqb (category item) (TextCategory_value SEXUAL)
  || String.eqb (category item) (TextCategory_value VIOLENCE).

Definition result_keys : gset string :=
  {[ "hate"; "selfHarm"; "sexual"; "violence" ]}.

Definition interrupted_world : world :=
  {| environ := example_env;
     request_get_json := Return hello_body;
     client_analyze_text := fun _ _ _ => Raise (OtherException "connection reset") |}.

Definition malformed_world : world :=
  {| environ := example_env;
     request_get_json := Raise (BadRequest "Failed to decode JSON object");
     client_analyze_text := example_service |}.

(** The JSON envelope of every answer that is not a success: an [error]
    field holding a string, and neither [text] nor [results]. *)
Definition error_envelope (fields : gmap string pyval) : Prop :=
  (exists msg, fields !! "error" = Some (PStr msg)) /\
  fields !! "text" = None /\ fields !! "results" = None.

(** ** The moderation path, case by case *)

Lemma credentials_None_inv env :
  credentials env = None ->
  match env !! KEY, env !! ENDPOINT with
  | Some k, Some ep => negb (str_truthy k) || negb (str_truthy ep) = true
  | _, _ => True
  end.
Proof.
  unfold credentials.
  destruct (env !! KEY) as [k|]; [|done].
  destruct (env !! ENDPOINT) as [ep|]; [|done].
  destruct (str_truthy k), (str_truthy ep); done.
Qed.

Lemma credentials_Some_inv env k ep :
  credentials env = Some (k, ep) ->
  env !! KEY = Some k /\ env !! ENDPOINT = Some ep /\
  str_truthy k = true /\ str_truthy ep = true.
Proof.
  unfold credentials.
  destruct (env !! KEY) as [k'|]; [|done].
  destruct (env !! ENDPOINT) as [ep'|]; [|done].
  destruct (str_truthy k') eqn:Tk, (str_truthy ep') eqn:Tep;
    cbn [andb]; intros ?; simplify_eq; done.
Qed.

Lemma analyze_unconfigured w text :
  credentials (environ w) = None ->
  analyze_content_safety w text =
    (preamble (environ w),
     Return (PDict {[ "error" := PStr credentials_error ]}, 500)).
Proof.
  intros H%credentials_None_inv.
  unfold analyze_content_safety, os_environ_get, preamble. fold KEY ENDPOINT.
  destruct (environ w !! KEY) as [k|], (environ w !! ENDPOINT) as [ep|];
    run; try reflexivity.
  rewrite H. reflexivity.
Qed.

Lemma analyze_success w text k ep response :
  credentials (environ w) = Some (k, ep) ->
  client_analyze_text w ep k text = Return response ->
  analyze_content_safety w text =
    ((preamble (environ w) ++
      [Outbound ep k text;
       PrintObj (next_category HATE (categories_analysis response))])%list,
     Return (PDict (<["results" := PDict (normalize response)]>
                      {[ "text" := text ]}), 200)).
Proof.
  intros (Hk & Hep & Tk & Tep)%credentials_Some_inv Hcall.
  unfold analyze_content_safety, os_environ_get, preamble, call_and_normalize.
  fold KEY ENDPOINT. rewrite Hk, Hep. run. rewrite Tk, Tep. run.
  rewrite Hcall. run. reflexivity.
Qed.

Lemma analyze_failure w text k ep e :
  credentials (environ w) = Some (k, ep) ->
  client_analyze_text w ep k text = Raise e ->
  analyze_content_safety w text =
    ((preamble (environ w) ++
      [Outbound ep k text;
       Print ("Error in analyze_content_safety: " +:+ str_exn e)])%list,
     Return (PDict {[ "error" := PStr (str_exn e) ]}, 500)).
Proof.
  intros (Hk & Hep & Tk & Tep)%credentials_Some_inv Hcall.
  unfold analyze_content_safety, os_environ_get, preamble, call_and_normalize.
  fold KEY ENDPOINT. rewrite Hk, Hep. run. rewrite Tk, Tep. run.
  rewrite Hcall. run. reflexivity.
Qed.

Lemma analyze_returns w text :
  exists t body status,
    analyze_content_safety w text = (t, Return (body, status)) /\
    (status = 200 \/ status = 500).
Proof.
  destruct (credentials (environ w)) as [[k ep]|] eqn:Hc.
  - destruct (client_analyze_text w ep k text) as [response|e] eqn:Hcall.
    + erewrite analyze_success by eassumption. eauto 6.
    + erewrite analyze_failure by eassumption. eauto 6.
  - rewrite analyze_unconfigured by assumption. eauto 6.
Qed.

(** ** The route, case by case *)

Lemma truthy_dict (d : gmap string pyval) k x :
  d !! k = Some x -> truthy (PDict d) = true.
Proof.
  intros H. cbn [truthy]. rewrite bool_decide_eq_false_2; [done|].
  intros ->. by rewrite lookup_empty in H.
Qed.

(** An object body that has the key is handed to the moderation path, and
    the route answers what that path answers. *)
Lemma route_object w (d : gmap string pyval) text :
  request_get_json w = Return (PDict d) ->
  d !! "text" = Some text ->
  content_text_safety w = analyze_content_safety w text.
Proof.
  intros Hj Ht.
  destruct (analyze_returns w text) as (t & body & status & Ha & _).
  unfold content_text_safety. rewrite Hj. run.
  rewrite (truthy_dict d "text" text Ht). run.
  cbn [py_contains]. rewrite bool_decide_eq_true_2 by (rewrite Ht; eauto).
  run. cbn [py_getitem]. rewrite Ht. run. rewrite Ha. run.
  by rewrite app_nil_r.
Qed.

(** The guard of line 100 on a body that is false ([None], an empty
    container, zero, [False]). *)
Lemma route_rejects_falsy w v :
  request_get_json w = Return v ->
  truthy v = false ->
  content_text_safety w = ([], Return (missing_text_error, 400)).
Proof.
  intros Hj Hv. unfold content_text_safety. rewrite Hj. run.
  rewrite Hv. run. reflexivity.
Qed.

(** The guard of line 100 on an object without the key. *)
Lemma route_rejects_object_without_text w (d : gmap string pyval) :
  request_get_json w = Return (PDict d) ->
  d !! "text" = None ->
  content_text_safety w = ([], Return (missing_text_error, 400)).
Proof.
  intros Hj Ht. unfold content_text_safety. rewrite Hj. run.
  destruct (truthy (PDict d)); run; [|reflexivity].
  cbn [py_contains]. rewrite bool_decide_eq_false_2.
  - run. reflexivity.
  - rewrite Ht. by intros [? ?].
Qed.

Lemma route_contains_raises w v msg :
  request_get_json w = Return v ->
  truthy v = true ->
  py_contains "text" v = Raise (TypeError msg) ->
  content_text_safety w = generic_error (TypeError msg).
Proof.
  intros Hj Hv Hc. unfold content_text_safety. rewrite Hj. run.
  rewrite Hv. run. rewrite Hc. run. reflexivity.
Qed.

Lemma route_getitem_raises w v msg :
  request_get_json w = Return v ->
  truthy v = true ->
  py_contains "text" v = Return true ->
  py_getitem v "text" = Raise (TypeError msg) ->
  content_text_safety w = generic_error (TypeError msg).
Proof.
  intros Hj Hv Hc Hg. unfold content_text_safety. rewrite Hj. run.
  rewrite Hv. run. rewrite Hc. run. rewrite Hg. run. reflexivity.
Qed.

Lemma route_get_json_raises w description :
  request_get_json w = Raise (BadRequest description) ->
  content_text_safety w = generic_error (BadRequest description).
Proof.
  intros Hj. unfold content_text_safety. rewrite Hj. run. reflexivity.
Qed.

Lemma unset_or_empty_no_credentials env :
  unset_or_empty (env !! KEY) \/ unset_or_empty (env !! ENDPOINT) ->
  credentials env = None.
Proof.
  unfold credentials, unset_or_empty.
  intros [[H|H]|[H|H]]; rewrite H; try done;
    destruct (env !! KEY) as [k|]; try done;
    destruct (env !! ENDPOINT) as [ep|]; try done;
    by destruct (str_truthy k).
Qed.

(** ** Validation *)

(** C1: the claim asks for HTTP 400 on every body without a usable [text]
    field.  The guard does that for a false body and for an object without
    the key, but a JSON number passes [not request_data] and then breaks the
    membership test: the blanket handler answers HTTP 500 with the text of
    the [TypeError], whatever the environment and the service are. *)
Theorem number_body_gets_500_not_400 :
  forall env service,
    content_text_safety
      {| environ := env;
         request_get_json := Return (PInt 5);
         client_analyze_text := service |} =
    ([Print "Error in content_text_safety: argument of type 'int' is not iterable"],
     Return (PDict {[ "error" := PStr "argument of type 'int' is not iterable" ]},
             500)).
Proof.
  intros env service.
  erewrite route_contains_raises; [reflexivity| reflexivity..].
Qed.

(** C10: there is a valid JSON body that is not an object and has no [text]
    field, the string "textbook", for which the route answers HTTP 500 and
    not 400: ['text' in request_data] holds as a substring test, indexing
    the string with ['text'] raises [TypeError], and the generic handler
    turns it into the 500 response. *)
Theorem string_body_textbook_gets_500 :
  exists body : pyval,
    body = PStr "textbook" /\
    (forall d, body <> PDict d) /\
    truthy body = true /\
    py_contains "text" body = Return true /\
    py_getitem body "text" =
      Raise (TypeError "string indices must be integers, not 'str'") /\
    forall env service,
      content_text_safety
        {| environ := env;
           request_get_json := Return body;
           client_analyze_text := service |} =
      ([Print "Error in content_text_safety: string indices must be integers, not 'str'"],
       Return (PDict {[ "error" :=
                          PStr "string indices must be integers, not 'str'" ]},
               500)).
Proof.
  exists (PStr "textbook").
  split; [reflexivity|]. split; [discriminate|].
  do 3 (split; [reflexivity|]).
  intros env service.
  erewrite route_getitem_raises; reflexivity.
Qed.

(** ** Credentials *)

(** C2: an object body with a [text] field and a key or endpoint that is
    unset or empty: the response is HTTP 500 with the fixed configuration
    message and no outbound call is made. *)
Theorem missing_credentials_give_500 w (d : gmap string pyval) text :
  request_get_json w = Return (PDict d) ->
  d !! "text" = Some text ->
  unset_or_empty (environ w !! "CONTENT_SAFETY_KEY") \/
  unset_or_empty (environ w !! "CONTENT_SAFETY_ENDPOINT") ->
  result (content_text_safety w) =
    Return (PDict {[ "error" :=
      PStr "Azure Content Safety credentials not configured. Set CONTENT_SAFETY_KEY and CONTENT_SAFETY_ENDPOINT environment variables." ]},
            500) /\
  outbound_calls (content_text_safety w) = [].
Proof.
  intros Hj Ht Hc%unset_or_empty_no_credentials.
  rewrite (route_object w d text Hj Ht), (analyze_unconfigured w text Hc).
  split; reflexivity.
Qed.

Lemma missing_credentials_give_500_witness :
  result (content_text_safety unconfigured_world) =
    Return (PDict {[ "error" :=
      PStr "Azure Content Safety credentials not configured. Set CONTENT_SAFETY_KEY and CONTENT_SAFETY_ENDPOINT environment variables." ]},
            500) /\
  outbound_calls (content_text_safety unconfigured_world) = [].
Proof.
  apply (missing_credentials_give_500 unconfigured_world
           {[ "text" := PStr "hello" ]} (PStr "hello")).
  - reflexivity.
  - reflexivity.
  - left. left. reflexivity.
Defined.

(** ** Failures of the outbound call *)

Lemma api_error_response_has_details error body :
  api_error_response error = PDict body -> is_Some (body !! "details").
Proof.
  unfold api_error_response. intros [= <-].
  rewrite lookup_insert_eq. eauto.
Qed.

(** C3: the claim expects the structured envelope with [details] when the
    service fails with an [HttpResponseError].  On the code the error never
    reaches the route's [except HttpResponseError] clause: the blanket
    handler inside [analyze_content_safety] has already turned it into
    [{"error": str(e)}], which the route relays with status 500 and without
    any [details]. *)
Theorem service_error_loses_details w (d : gmap string pyval) text k ep msg err :
  request_get_json w = Return (PDict d) ->
  d !! "text" = Some text ->
  credentials (environ w) = Some (k, ep) ->
  client_analyze_text w ep k text = Raise (HttpResponseError msg (Some err)) ->
  result (content_text_safety w) =
    Return (PDict {[ "error" := PStr msg ]}, 500) /\
  result (content_text_safety w) <>
    Return (api_error_response (Some err), 500).
Proof.
  intros Hj Ht Hc Hcall.
  rewrite (route_object w d text Hj Ht).
  rewrite (analyze_failure w text k ep _ Hc Hcall).
  split; [reflexivity|].
  cbn [result snd str_exn]. intros H.
  assert (E : PDict {[ "error" := PStr msg ]} = api_error_response (Some err))
    by congruence.
  symmetry in E. apply api_error_response_has_details in E.
  rewrite lookup_singleton_ne in E by done. by destruct E.
Qed.

Lemma service_error_loses_details_witness :
  result (content_text_safety failing_world) =
    Return (PDict {[ "error" :=
                       PStr "(InvalidRequestBody) The request body is invalid." ]},
            500) /\
  result (content_text_safety failing_world) <>
    Return (api_error_response
              (Some {| code := Some "InvalidRequestBody";
                       message := Some "The request body is invalid." |}), 500).
Proof.
  apply (service_error_loses_details failing_world
           {[ "text" := PStr "hello" ]} (PStr "hello")
           "0123456789abcdef" "https://example.cognitiveservices.azure.com").
  - reflexivity.
  - reflexivity.
  - reflexivity.
  - reflexivity.
Defined.

(** ** Totality of the route *)

(** C6: for every body that is an object with a [text] field the route
    returns a response (no exception leaves it), its status is 200 or 500,
    and it is 200 exactly when the credentials are configured and the
    outbound call returns. *)
Theorem text_request_answers_200_or_500 w (d : gmap string pyval) text :
  request_get_json w = Return (PDict d) ->
  d !! "text" = Some text ->
  exists t body status,
    content_text_safety w = (t, Return (body, status)) /\
    (status = 200 \/ status = 500) /\
    (status = 200 <->
     exists k ep response,
       credentials (environ w) = Some (k, ep) /\
       client_analyze_text w ep k text = Return response).
Proof.
  intros Hj Ht. rewrite (route_object w d text Hj Ht).
  destruct (credentials (environ w)) as [[k ep]|] eqn:Hc.
  - destruct (client_analyze_text w ep k text) as [response|e] eqn:Hcall.
    + rewrite (analyze_success w text k ep response Hc Hcall).
      do 3 eexists. split; [reflexivity|]. split; [by left|].
      split; [|done]. intros _. exists k, ep, response. done.
    + rewrite (analyze_failure w text k ep e Hc Hcall).
      do 3 eexists. split; [reflexivity|]. split; [by right|].
      split; [done|]. intros (k' & ep' & r & [= <- <-] & Hr). congruence.
  - rewrite (analyze_unconfigured w text Hc).
    do 3 eexists. split; [reflexivity|]. split; [by right|].
    split; [done|]. intros (k' & ep' & r & [=] & _).
Qed.

Lemma text_request_answers_200_or_500_witness :
  exists t body status,
    content_text_safety failing_world = (t, Return (body, status)) /\
    (status = 200 \/ status = 500) /\
    (status = 200 <->
     exists k ep response,
       credentials (environ failing_world) = Some (k, ep) /\
       client_analyze_text failing_world ep k (PStr "hello") = Return response).
Proof.
  apply (text_request_answers_200_or_500 failing_world
           {[ "text" := PStr "hello" ]} (PStr "hello")).
  - reflexivity.
  - reflexivity.
Defined.

(** ** The response normalizer *)

Lemma build_results_lookup hate_result self_harm_result sexual_result
  violence_result c :
  build_results hate_result self_harm_result sexual_result violence_result
    !! result_key c =
  (fun item => PDict {[ "severity" := py_of_opt_int (severity item) ]})
    <$> selected hate_result self_harm_result sexual_result violence_result c.
Proof.
  unfold build_results. rewrite map_lookup_filter.
  destruct c; cbn [result_key selected];
    rewrite ?lookup_insert_ne, lookup_insert_eq by done;
    match goal with |- context [severity_or_None ?r] => destruct r end;
    reflexivity.
Qed.

Lemma normalize_lookup response c :
  normalize response !! result_key c =
  (fun item => PDict {[ "severity" := py_of_opt_int (severity item) ]})
    <$> next_category c (categories_analysis response).
Proof.
  unfold normalize. rewrite build_results_lookup. by destruct c.
Qed.

Lemma next_category_is_Some c l :
  is_Some (next_category c l) <->
  exists item, In item l /\ category item = TextCategory_value c.
Proof.
  unfold next_category. split.
  - intros [item H]. apply find_some in H as [Hin Heq].
    exists item. split; [done|]. by apply String.eqb_eq.
  - intros (item & Hin & Heq).
    destruct (find _ l) eqn:Hf; [eauto|].
    eapply find_none in Hf; [|exact Hin].
    cbn beta in Hf. rewrite Heq, String.eqb_refl in Hf. done.
Qed.


Lemma next_category_None c l :
  next_category c l = None <->
  forall item, In item l -> category item <> TextCategory_value c.
Proof.
  rewrite eq_None_not_Some, next_category_is_Some. split.
  - intros H item Hin Heq. apply H. eauto.
  - intros H (item & Hin & Heq). by apply (H item).
Qed.

Lemma next_category_app c l l' :
  next_category c (l ++ l') =
  match next_category c l with
  | Some item => Some item
  | None => next_category c l'
  end.
Proof.
  unfold next_category. induction l as [|item l IH]; [reflexivity|].
  cbn [app find]. by destruct (category item =? TextCategory_value c)%string.
Qed.

(** C5, as the claim states it, fails: an entry whose severity is null is
    not omitted, its key is present with [{"severity": None}]. *)
Lemma null_severity_is_kept :
  normalize null_severity_response !! "hate" =
    Some (PDict {[ "severity" := PNone ]}) /\
  normalize null_severity_response !! "hate" <> None.
Proof.
  assert (H : normalize null_severity_response !! "hate" =
              Some (PDict {[ "severity" := PNone ]})).
  { apply (normalize_lookup null_severity_response HATE). }
  split; [exact H|]. rewrite H. discriminate.
Qed.

(** C5, amended: the normalizer omits a category's key exactly when the raw
    list has no entry for that category.  A null severity is no ground for
    omission: when the entry that the lookup selects for a category, the
    first of that category wherever it stands in the list, has a null
    severity, the key is present with [{"severity": None}]. *)
Theorem normalizer_omits_only_absent response c :
  (normalize response !! result_key c = None <->
   forall item,
     In item (categories_analysis response) ->
     category item <> TextCategory_value c) /\
  forall before item after,
    categories_analysis response = (before ++ item :: after)%list ->
    (forall earlier, In earlier before ->
                     category earlier <> TextCategory_value c) ->
    category item = TextCategory_value c ->
    severity item = None ->
    normalize response !! result_key c = Some (PDict {[ "severity" := PNone ]}).
Proof.
  split.
  - rewrite normalize_lookup, fmap_None. apply next_category_None.
  - intros before item after Hl Hbefore Hc Hs.
    rewrite normalize_lookup, Hl, next_category_app.
    rewrite (proj2 (next_category_None c before) Hbefore).
    unfold next_category. cbn [find]. rewrite Hc, String.eqb_refl.
    cbn [fmap option_fmap option_map]. by rewrite Hs.
Qed.

Lemma normalizer_omits_only_absent_witness :
  normalize late_null_response !! "selfHarm" =
    Some (PDict {[ "severity" := PNone ]}) /\
  (normalize late_null_response !! "sexual" = None <->
   forall item,
     In item (categories_analysis late_null_response) ->
     category item <> "Sexual").
Proof.
  split.
  - apply (proj2 (normalizer_omits_only_absent late_null_response SELF_HARM)
             [ {| category := "Hate"; severity := Some 0 |} ]
             {| category := "SelfHarm"; severity := None |}
             [ {| category := "SelfHarm"; severity := Some 4 |} ]).
    + reflexivity.
    + intros earlier [<-|[]]. discriminate.
    + reflexivity.
    + reflexivity.
  - exact (proj1 (normalizer_omits_only_absent late_null_response SEXUAL)).
Defined.

(** ** A null [text] *)

(** C7, as the claim states it, fails: with the credentials configured, a
    body [{"text": null}] is not rejected; the outbound call is made with
    the text [None] and the answer is HTTP 200. *)
Lemma null_text_is_not_rejected :
  result (content_text_safety null_text_world) =
    Return (PDict (<["results" := PDict (normalize example_response)]>
                     {[ "text" := PNone ]}), 200) /\
  outbound_calls (content_text_safety null_text_world) =
    [Outbound "https://example.cognitiveservices.azure.com"
       "0123456789abcdef" PNone].
Proof.
  assert (H : content_text_safety null_text_world =
              analyze_content_safety null_text_world PNone).
  { by apply (route_object _ {[ "text" := PNone ]}). }
  rewrite H.
  rewrite (analyze_success null_text_world PNone "0123456789abcdef"
             "https://example.cognitiveservices.azure.com" example_response)
    by reflexivity.
  split; reflexivity.
Qed.

(** C7, amended: the guard tests only that the key is present.  A body that
    is an object with [text] set to null passes validation and is handled as
    any other text: the status is 200 or 500, never 400, and with configured
    credentials exactly one outbound call is made, carrying [None]; without
    them none is made. *)
Theorem null_text_passes_validation w (d : gmap string pyval) :
  request_get_json w = Return (PDict d) ->
  d !! "text" = Some PNone ->
  content_text_safety w = analyze_content_safety w PNone /\
  (exists t body status,
     content_text_safety w = (t, Return (body, status)) /\
     (status = 200 \/ status = 500) /\ status <> 400) /\
  outbound_calls (content_text_safety w) =
    match credentials (environ w) with
    | Some (k, ep) => [Outbound ep k PNone]
    | None => []
    end.
Proof.
  intros Hj Ht. rewrite (route_object w d PNone Hj Ht).
  split; [reflexivity|]. split.
  - destruct (analyze_returns w PNone) as (t & body & status & -> & Hs).
    exists t, body, status. split; [reflexivity|]. split; [exact Hs|].
    destruct Hs as [-> | ->]; discriminate.
  - destruct (credentials (environ w)) as [[k ep]|] eqn:Hc.
    + destruct (client_analyze_text w ep k PNone) as [response|e] eqn:Hcall.
      * rewrite (analyze_success w PNone k ep response Hc Hcall). reflexivity.
      * rewrite (analyze_failure w PNone k ep e Hc Hcall). reflexivity.
    + rewrite (analyze_unconfigured w PNone Hc). reflexivity.
Qed.

Lemma null_text_passes_validation_witness :
  content_text_safety null_text_world =
    analyze_content_safety null_text_world PNone /\
  (exists t body status,
     content_text_safety null_text_world = (t, Return (body, status)) /\
     (status = 200 \/ status = 500) /\ status <> 400) /\
  outbound_calls (content_text_safety null_text_world) =
    match credentials (environ null_text_world) with
    | Some (k, ep) => [Outbound ep k PNone]
    | None => []
    end.
Proof.
  apply (null_text_passes_validation null_text_world {[ "text" := PNone ]}).
  - reflexivity.
  - reflexivity.
Defined.

(** ** The echoed text *)

(** C9: whenever the route answers HTTP 200, the body's [text] field is the
    value of the request's [text] field, unchanged, next to the normalized
    results of the service's answer. *)
Theorem success_echoes_text w (d : gmap string pyval) text t body :
  request_get_json w = Return (PDict d) ->
  d !! "text" = Some text ->
  content_text_safety w = (t, Return (body, 200)) ->
  exists (fields : gmap string pyval) k ep response,
    body = PDict fields /\
    fields !! "text" = Some text /\
    credentials (environ w) = Some (k, ep) /\
    client_analyze_text w ep k text = Return response /\
    fields !! "results" = Some (PDict (normalize response)).
Proof.
  intros Hj Ht. rewrite (route_object w d text Hj Ht).
  destruct (credentials (environ w)) as [[k ep]|] eqn:Hc.
  - destruct (client_analyze_text w ep k text) as [response|e] eqn:Hcall.
    + rewrite (analyze_success w text k ep response Hc Hcall).
      intros [= _ <-]. eexists _, k, ep, response.
      split; [reflexivity|].
      rewrite lookup_insert_ne, lookup_singleton_eq, lookup_insert_eq by done.
      done.
    + rewrite (analyze_failure w text k ep e Hc Hcall). intros [=].
  - rewrite (analyze_unconfigured w text Hc). intros [=].
Qed.

Lemma success_echoes_text_witness :
  exists (fields : gmap string pyval) k ep response,
    PDict (<["results" := PDict (normalize example_response)]>
             {[ "text" := PStr "hello" ]}) = PDict fields /\
    fields !! "text" = Some (PStr "hello") /\
    credentials (environ success_world) = Some (k, ep) /\
    client_analyze_text success_world ep k (PStr "hello") = Return response /\
    fields !! "results" = Some (PDict (normalize response)).
Proof.
  apply (success_echoes_text success_world {[ "text" := PStr "hello" ]}
           (PStr "hello") (trace (content_text_safety success_world))).
  - reflexivity.
  - reflexivity.
  - vm_compute. reflexivity.
Defined.

(** ** What the diagnostics show of the key *)



Lemma printed_analyze w text :
  printed (analyze_content_safety w text) =
  Print ("API Key (first 5 chars): " +:+ key_shown (environ w !! KEY))
  :: Print ("Endpoint: " +:+ fmt_opt (environ w !! ENDPOINT))
  :: later_lines w text.
Proof.
  unfold later_lines.
  destruct (credentials (environ w)) as [[k ep]|] eqn:Hc.
  - destruct (client_analyze_text w ep k text) as [response|e] eqn:Hcall.
    + rewrite (analyze_success w text k ep response Hc Hcall). reflexivity.
    + rewrite (analyze_failure w text k ep e Hc Hcall). reflexivity.
  - rewrite (analyze_unconfigured w text Hc). reflexivity.
Qed.

Lemma printed_banner env :
  printed (startup_banner env) =
  [Print "Loaded environment variables:";
   Print ("CONTENT_SAFETY_KEY: " +:+
          str_take 5 (default "Not found" (env !! KEY)) +:+ "... (truncated)");
   Print ("CONTENT_SAFETY_ENDPOINT: " +:+ default "Not found" (env !! ENDPOINT))].
Proof. reflexivity. Qed.



(** C8: the claim, like the source's own comment on the banner ("without
    revealing full key"), expects that the full key never reaches the
    output.  The code prints [key[:5]] without looking at the key's length:
    with the key [abc] both the moderation path and the banner print the
    whole secret. *)
Lemma short_key_is_printed_whole :
  environ short_key_world !! "CONTENT_SAFETY_KEY" = Some "abc" /\
  In (Print ("API Key (first 5 chars): " +:+ "abc"))
     (printed (analyze_content_safety short_key_world (PStr "hello"))) /\
  In (Print ("CONTENT_SAFETY_KEY: " +:+ "abc" +:+ "... (truncated)"))
     (printed (startup_banner short_key_env)).
Proof.
  split; [reflexivity|]. split.
  - rewrite printed_analyze. left. reflexivity.
  - rewrite printed_banner. right. left. reflexivity.
Qed.



(** ** The route on every request *)

(** How the route ends, for every world: it hands an object body with a
    [text] field to the moderation path, rejects the body, or lands in one
    of its two handlers. *)
Lemma route_outcome w :
  (exists (d : gmap string pyval) text,
     request_get_json w = Return (PDict d) /\ d !! "text" = Some text /\
     content_text_safety w = analyze_content_safety w text) \/
  (exists v,
     request_get_json w = Return v /\ rejected_by_guard v /\
     content_text_safety w = ([], Return (missing_text_error, 400))) \/
  (exists e,
     is_http_response_error e = false /\
     (request_get_json w = Raise e \/
      exists v, request_get_json w = Return v /\ ~ rejected_by_guard v /\
                forall d, v <> PDict d) /\
     content_text_safety w = generic_error e) \/
  (exists msg error,
     request_get_json w = Raise (HttpResponseError msg error) /\
     content_text_safety w = ([], Return (api_error_response error, 500))).
Proof.
  destruct (request_get_json w) as [v|e] eqn:Hj.
  - destruct (truthy v) eqn:Hv.
    2:{ right. left. exists v. split; [done|]. split; [by left|].
        by apply (route_rejects_falsy w v). }
    destruct (py_contains "text" v) as [[|]|e] eqn:Hc.
    + destruct v as [| b | n | f | s | l | d]; try discriminate Hc.
      * right. right. left.
        exists (TypeError "string indices must be integers, not 'str'").
        split; [done|]. split.
        -- right. exists (PStr s). split; [done|]. split; [|done].
           intros [H|H]; congruence.
        -- by apply (route_getitem_raises w (PStr s)).
      * right. right. left.
        exists (TypeError "list indices must be integers or slices, not str").
        split; [done|]. split.
        -- right. exists (PList l). split; [done|]. split; [|done].
           intros [H|H]; congruence.
        -- by apply (route_getitem_raises w (PList l)).
      * left. cbn [py_contains] in Hc. injection Hc as Hc.
        apply bool_decide_eq_true_1 in Hc as [text Ht].
        exists d, text. split; [done|]. split; [done|].
        by apply (route_object w d).
    + right. left. exists v. split; [done|]. split; [by right|].
      unfold content_text_safety. rewrite Hj. run. rewrite Hv. run.
      rewrite Hc. run. reflexivity.
    + right. right. left.
      assert (exists msg, e = TypeError msg /\ forall d, v <> PDict d)
        as (msg & -> & Hd).
      { destruct v; cbn [py_contains] in Hc; try discriminate Hc;
          injection Hc as <-; eauto. }
      exists (TypeError msg). split; [done|]. split.
      * right. exists v. split; [done|]. split; [|done].
        intros [H|H]; congruence.
      * by apply (route_contains_raises w v).
  - destruct (is_http_response_error e) eqn:He.
    + destruct e; try discriminate He. right. right. right.
      exists msg, error. split; [done|].
      unfold content_text_safety. rewrite Hj. reflexivity.
    + right. right. left. exists e. split; [done|]. split; [by left|].
      unfold content_text_safety. rewrite Hj. run.
      destruct e; try discriminate He; reflexivity.
Qed.

Lemma error_envelope_singleton msg :
  error_envelope {[ "error" := PStr msg ]}.
Proof.
  split; [exists msg; apply lookup_singleton_eq|].
  split; by apply lookup_singleton_ne.
Qed.

Lemma error_envelope_api_error error :
  exists fields,
    api_error_response error = PDict fields /\ error_envelope fields /\
    is_Some (fields !! "details").
Proof.
  unfold api_error_response. eexists. split; [reflexivity|]. split.
  - split; [|split].
    + eexists. rewrite lookup_insert_ne by done. apply lookup_singleton_eq.
    + rewrite lookup_insert_ne by done. by apply lookup_singleton_ne.
    + rewrite lookup_insert_ne by done. by apply lookup_singleton_ne.
  - rewrite lookup_insert_eq. eauto.
Qed.

(** How the moderation path ends, for every world and text. *)
Lemma analyze_outcome w text :
  (credentials (environ w) = None /\
   analyze_content_safety w text =
     (preamble (environ w),
      Return (PDict {[ "error" := PStr credentials_error ]}, 500))) \/
  (exists k ep response,
     credentials (environ w) = Some (k, ep) /\
     client_analyze_text w ep k text = Return response /\
     analyze_content_safety w text =
       ((preamble (environ w) ++
         [Outbound ep k text;
          PrintObj (next_category HATE (categories_analysis response))])%list,
        Return (PDict (<["results" := PDict (normalize response)]>
                         {[ "text" := text ]}), 200))) \/
  (exists k ep e,
     credentials (environ w) = Some (k, ep) /\
     client_analyze_text w ep k text = Raise e /\
     analyze_content_safety w text =
       ((preamble (environ w) ++
         [Outbound ep k text;
          Print ("Error in analyze_content_safety: " +:+ str_exn e)])%list,
        Return (PDict {[ "error" := PStr (str_exn e) ]}, 500))).
Proof.
  destruct (credentials (environ w)) as [[k ep]|] eqn:Hc.
  - destruct (client_analyze_text w ep k text) as [response|e] eqn:Hcall.
    + right. left. exists k, ep, response.
      eauto using analyze_success.
    + right. right. exists k, ep, e. eauto using analyze_failure.
  - left. eauto using analyze_unconfigured.
Qed.

(** X1: whatever the body, the environment and the service do, the route
    returns a JSON object: either status 200 with exactly the fields [text]
    and [results], or status 400 or 500 with an [error] string and neither
    of those fields. *)
Theorem route_response_envelope w :
  exists t fields status,
    content_text_safety w = (t, Return (PDict fields, status)) /\
    ((status = 200 /\ dom fields = ({[ "text"; "results" ]} : gset string)) \/
     ((status = 400 \/ status = 500) /\ error_envelope fields)).
Proof.
  destruct (route_outcome w)
    as [(d & text & _ & _ & ->)
       |[(v & _ & _ & ->)
        |[(e & _ & _ & ->)|(msg & error & _ & ->)]]].
  - destruct (analyze_outcome w text)
      as [(_ & ->)|[(k & ep & r & _ & _ & ->)|(k & ep & e & _ & _ & ->)]].
    + do 3 eexists. split; [reflexivity|]. right.
      split; [by right|]. apply error_envelope_singleton.
    + do 3 eexists. split; [reflexivity|]. left. split; [done|].
      rewrite dom_insert_L, dom_singleton_L. set_solver.
    + do 3 eexists. split; [reflexivity|]. right.
      split; [by right|]. apply error_envelope_singleton.
  - do 3 eexists. split; [reflexivity|]. right.
    split; [by left|]. apply error_envelope_singleton.
  - do 3 eexists. split; [reflexivity|]. right.
    split; [by right|]. apply error_envelope_singleton.
  - destruct (error_envelope_api_error error) as (fields & -> & He & _).
    do 3 eexists. split; [reflexivity|]. right. split; [by right|done].
Qed.

Lemma status_of_analyze w text :
  status_of (analyze_content_safety w text) = Some 200 \/
  status_of (analyze_content_safety w text) = Some 500.
Proof.
  destruct (analyze_outcome w text)
    as [(_ & ->)|[(k & ep & r & _ & _ & ->)|(k & ep & e & _ & _ & ->)]];
    [by right | by left | by right].
Qed.

Lemma dict_with_text_not_rejected (d : gmap string pyval) text :
  d !! "text" = Some text -> ~ rejected_by_guard (PDict d).
Proof.
  intros Ht [H|H].
  - by rewrite (truthy_dict d "text" text Ht) in H.
  - cbn [py_contains] in H. injection H as H.
    apply bool_decide_eq_false_1 in H. apply H. rewrite Ht. eauto.
Qed.

Lemma rejected_dict_has_no_text (d : gmap string pyval) :
  rejected_by_guard (PDict d) -> d !! "text" = None.
Proof.
  intros Hr. destruct (d !! "text") as [text|] eqn:Ht; [|done].
  by destruct (dict_with_text_not_rejected d text Ht).
Qed.

(** X2: the route answers HTTP 400 exactly when [get_json] returns a body
    that is false or in which ['text' in body] is false; the answer is then
    the fixed message and nothing else has happened (no environment read,
    no printed line, no outbound call). *)
Theorem status_400_iff_rejected w :
  (status_of (content_text_safety w) = Some 400 <->
   exists v, request_get_json w = Return v /\ rejected_by_guard v) /\
  (status_of (content_text_safety w) = Some 400 <->
   content_text_safety w =
     ([], Return (PDict {[ "error" := PStr "Request must include 'text' field" ]},
                  400))).
Proof.
  assert (H400 : status_of (content_text_safety w) = Some 400 <->
                 content_text_safety w = ([], Return (missing_text_error, 400))).
  { split; [|by intros ->].
    destruct (route_outcome w)
      as [(d & text & _ & _ & ->)
         |[(v & _ & _ & ->)
          |[(e & _ & _ & ->)|(msg & error & _ & ->)]]]; try done.
    by destruct (status_of_analyze w text) as [-> | ->]. }
  split; [|exact H400].
  destruct (route_outcome w)
    as [(d & text & Hj & Ht & ->)
       |[(v & Hj & Hr & ->)
        |[(e & _ & Hj & ->)|(msg & error & Hj & ->)]]].
  - split.
    + by destruct (status_of_analyze w text) as [-> | ->].
    + intros (v & Hv & Hr). rewrite Hj in Hv. injection Hv as <-.
      by destruct (dict_with_text_not_rejected d text Ht).
  - split; [eauto|done].
  - split; [done|]. intros (v & Hv & Hr).
    destruct Hj as [Hj|(v' & Hj & Hn & _)]; rewrite Hj in Hv; [done|].
    injection Hv as <-. by destruct Hn.
  - split; [done|]. intros (v & Hv & _). by rewrite Hj in Hv.
Qed.

Lemma env_reads_analyze w text :
  env_reads (analyze_content_safety w text) = [EnvRead KEY; EnvRead ENDPOINT].
Proof.
  destruct (analyze_outcome w text)
    as [(_ & ->)|[(k & ep & r & _ & _ & ->)|(k & ep & e & _ & _ & ->)]];
    reflexivity.
Qed.

Lemma outbound_calls_analyze w text :
  outbound_calls (analyze_content_safety w text) =
  match credentials (environ w) with
  | Some (k, ep) => [Outbound ep k text]
  | None => []
  end.
Proof.
  destruct (analyze_outcome w text)
    as [(Hc & ->)|[(k & ep & r & Hc & _ & ->)|(k & ep & e & Hc & _ & ->)]];
    rewrite Hc; reflexivity.
Qed.

(** X3: the credentials are read from the environment only for a body that
    passed validation, an object with a [text] field, and then on every
    such request, first the key and then the endpoint; a rejected or failing
    body never causes an environment read. *)
Theorem credentials_read_iff_validated w :
  env_reads (content_text_safety w) =
  match request_get_json w with
  | Return (PDict d) =>
      match d !! "text" with
      | Some _ => [EnvRead "CONTENT_SAFETY_KEY"; EnvRead "CONTENT_SAFETY_ENDPOINT"]
      | None => []
      end
  | _ => []
  end.
Proof.
  destruct (route_outcome w)
    as [(d & text & Hj & Ht & ->)
       |[(v & Hj & Hr & ->)
        |[(e & _ & Hj & ->)|(msg & error & Hj & ->)]]].
  - rewrite Hj, Ht. apply env_reads_analyze.
  - rewrite Hj. destruct v; try reflexivity.
    by rewrite (rejected_dict_has_no_text d Hr).
  - destruct Hj as [->|(v & -> & _ & Hd)]; [reflexivity|].
    destruct v; try reflexivity. by destruct (Hd d).
  - rewrite Hj. reflexivity.
Qed.

(** X4: a request causes at most one outbound call.  The call is made
    exactly when the body is an object with a [text] field and both
    credentials are set and non-empty, and it carries the configured
    endpoint and key and the request's text, unchanged whatever its type. *)
Theorem outbound_call_at_most_once w :
  outbound_calls (content_text_safety w) =
  match request_get_json w with
  | Return (PDict d) =>
      match d !! "text", credentials (environ w) with
      | Some text, Some (k, ep) => [Outbound ep k text]
      | _, _ => []
      end
  | _ => []
  end.
Proof.
  destruct (route_outcome w)
    as [(d & text & Hj & Ht & ->)
       |[(v & Hj & Hr & ->)
        |[(e & _ & Hj & ->)|(msg & error & Hj & ->)]]].
  - rewrite Hj, Ht. apply outbound_calls_analyze.
  - rewrite Hj. destruct v; try reflexivity.
    by rewrite (rejected_dict_has_no_text d Hr).
  - destruct Hj as [->|(v & -> & _ & Hd)]; [reflexivity|].
    destruct v; try reflexivity. by destruct (Hd d).
  - rewrite Hj. reflexivity.
Qed.

(** X5: whatever exception the outbound call raises, structured or not, the
    request ends with the two credential lines and the line
    [Error in analyze_content_safety: <str(e)>] printed, one outbound call
    made, and the answer HTTP 500 [{"error": str(e)}]. *)
Theorem outbound_failure_is_logged_and_answered w (d : gmap string pyval)
  text k ep e :
  request_get_json w = Return (PDict d) ->
  d !! "text" = Some text ->
  credentials (environ w) = Some (k, ep) ->
  client_analyze_text w ep k text = Raise e ->
  content_text_safety w =
    ([EnvRead "CONTENT_SAFETY_KEY"; EnvRead "CONTENT_SAFETY_ENDPOINT";
      Print ("API Key (first 5 chars): " +:+ str_take 5 k);
      Print ("Endpoint: " +:+ ep);
      Outbound ep k text;
      Print ("Error in analyze_content_safety: " +:+ str_exn e)],
     Return (PDict {[ "error" := PStr (str_exn e) ]}, 500)).
Proof.
  intros Hj Ht Hc Hcall.
  rewrite (route_object w d text Hj Ht).
  rewrite (analyze_failure w text k ep e Hc Hcall).
  apply credentials_Some_inv in Hc as (Hk & Hep & Tk & _).
  unfold preamble, key_shown. rewrite Hk, Hep, Tk. reflexivity.
Qed.

Lemma outbound_failure_is_logged_and_answered_witness :
  content_text_safety interrupted_world =
    ([EnvRead "CONTENT_SAFETY_KEY"; EnvRead "CONTENT_SAFETY_ENDPOINT";
      Print ("API Key (first 5 chars): " +:+ str_take 5 "0123456789abcdef");
      Print ("Endpoint: " +:+ "https://example.cognitiveservices.azure.com");
      Outbound "https://example.cognitiveservices.azure.com"
        "0123456789abcdef" (PStr "hello");
      Print ("Error in analyze_content_safety: " +:+
             str_exn (OtherException "connection reset"))],
     Return (PDict {[ "error" :=
                        PStr (str_exn (OtherException "connection reset")) ]},
             500)).
Proof.
  apply (outbound_failure_is_logged_and_answered interrupted_world
           {[ "text" := PStr "hello" ]}).
  - reflexivity.
  - reflexivity.
  - reflexivity.
  - reflexivity.
Defined.

(** X6: once [get_json] has returned a body, no answer of the route has a
    [details] field: the structured envelope of the
    [except HttpResponseError] clause cannot come out of the moderation
    path, whatever the service raises. *)
Theorem no_details_once_body_is_read w v t (fields : gmap string pyval) status :
  request_get_json w = Return v ->
  content_text_safety w = (t, Return (PDict fields, status)) ->
  fields !! "details" = None.
Proof.
  intros Hj.
  destruct (route_outcome w)
    as [(d & text & _ & _ & ->)
       |[(v' & _ & _ & ->)
        |[(e & _ & _ & ->)|(msg & error & Hj' & _)]]].
  - destruct (analyze_outcome w text)
      as [(_ & ->)|[(k & ep & r & _ & _ & ->)|(k & ep & e & _ & _ & ->)]];
      intros [= _ <- _].
    + by apply lookup_singleton_ne.
    + rewrite lookup_insert_ne by done. by apply lookup_singleton_ne.
    + by apply lookup_singleton_ne.
  - intros [= _ <- _]. by apply lookup_singleton_ne.
  - intros [= _ <- _]. by apply lookup_singleton_ne.
  - congruence.
Qed.

Lemma no_details_once_body_is_read_witness :
  ({[ "error" := PStr "(InvalidRequestBody) The request body is invalid." ]}
     : gmap string pyval) !! "details" = None.
Proof.
  apply (no_details_once_body_is_read failing_world hello_body
           (trace (content_text_safety failing_world)) _ 500).
  - reflexivity.
  - vm_compute. reflexivity.
Defined.

(** X7: when [get_json] itself raises (a malformed body makes Flask raise
    [BadRequest]), the route neither answers 400 nor looks at the
    credentials: any exception other than [HttpResponseError] is printed
    and answered with HTTP 500 [{"error": str(e)}]. *)
Theorem get_json_exception_gives_500 w e :
  request_get_json w = Raise e ->
  is_http_response_error e = false ->
  content_text_safety w =
    ([Print ("Error in content_text_safety: " +:+ str_exn e)],
     Return (PDict {[ "error" := PStr (str_exn e) ]}, 500)).
Proof.
  intros Hj He. unfold content_text_safety. rewrite Hj. run.
  destruct e; try discriminate He; reflexivity.
Qed.

Lemma get_json_exception_gives_500_witness :
  content_text_safety malformed_world =
    ([Print ("Error in content_text_safety: " +:+
             str_exn (BadRequest "Failed to decode JSON object"))],
     Return (PDict {[ "error" :=
                        PStr (str_exn (BadRequest "Failed to decode JSON object")) ]},
             500)).
Proof.
  apply (get_json_exception_gives_500 malformed_world).
  - reflexivity.
  - reflexivity.
Defined.

(** ** More on the response normalizer *)

Lemma build_results_lookup_Some hate_result self_harm_result sexual_result
  violence_result key v :
  build_results hate_result self_harm_result sexual_result violence_result
    !! key = Some v ->
  exists c item,
    key = result_key c /\
    selected hate_result self_harm_result sexual_result violence_result c
      = Some item /\
    v = PDict {[ "severity" := py_of_opt_int (severity item) ]}.
Proof.
  unfold build_results. rewrite map_lookup_filter_Some.
  intros [Hl Hv]. cbn [snd] in Hv.
  repeat (apply lookup_insert_Some in Hl as [[<- <-]|[_ Hl]]);
    [exists VIOLENCE | exists SEXUAL | exists SELF_HARM | exists HATE
    | by rewrite lookup_empty in Hl];
    cbn [selected result_key];
    match goal with H : Is_true (is_not_None (severity_or_None ?r)) |- _ =>
      destruct r as [item|]; [|done] end;
    by exists item.
Qed.

Lemma known_category_value item c :
  category item = TextCategory_value c -> known_category item = true.
Proof.
  unfold known_category. intros ->.
  destruct c; cbn [TextCategory_value]; rewrite String.eqb_refl;
    by rewrite ?orb_true_r.
Qed.

Lemma known_category_inv item :
  known_category item = true ->
  exists c, category item = TextCategory_value c.
Proof.
  unfold known_category. rewrite !orb_true_iff, !String.eqb_eq.
  intros [[[H|H]|H]|H]; eauto.
Qed.

Lemma normalize_lookup_Some response key v :
  normalize response !! key = Some v ->
  exists c item,
    key = result_key c /\
    In item (categories_analysis response) /\
    category item = TextCategory_value c /\
    v = PDict {[ "severity" := py_of_opt_int (severity item) ]}.
Proof.
  intros Hl. unfold normalize in Hl.
  apply build_results_lookup_Some in Hl as (c & item & -> & Hs & ->).
  exists c, item. split; [done|].
  assert (Hf : next_category c (categories_analysis response) = Some item)
    by (by destruct c).
  apply find_some in Hf as [Hin Heq]. apply String.eqb_eq in Heq. done.
Qed.

(** X8: the normalized results only ever hold the four fixed keys, and the
    value under a key is [{"severity": s}] with [s] the severity of an entry
    of the raw list for that key's category: nothing else of an entry, and
    no entry of another category, reaches the answer. *)
Theorem normalize_keeps_only_severity response :
  dom (normalize response) ⊆ result_keys /\
  forall key v,
    normalize response !! key = Some v ->
    exists c item,
      key = result_key c /\
      In item (categories_analysis response) /\
      category item = TextCategory_value c /\
      v = PDict {[ "severity" := py_of_opt_int (severity item) ]}.
Proof.
  split; [|apply normalize_lookup_Some].
  intros key [v Hl]%elem_of_dom.
  destruct (normalize_lookup_Some response key v Hl) as (c & _ & -> & _).
  unfold result_keys. destruct c; set_solver.
Qed.

Lemma normalize_keeps_only_severity_witness :
  dom (normalize example_response) ⊆ result_keys /\
  forall key v,
    normalize example_response !! key = Some v ->
    exists c item,
      key = result_key c /\
      In item (categories_analysis example_response) /\
      category item = TextCategory_value c /\
      v = PDict {[ "severity" := py_of_opt_int (severity item) ]}.
Proof.
  exact (normalize_keeps_only_severity example_response).
Defined.

Lemma next_category_perm c (l l' : list TextCategoriesAnalysis) :
  l ≡ₚ l' ->
  NoDup (category <$> l) ->
  next_category c l = next_category c l'.
Proof.
  unfold next_category. induction 1 as [|x l l' Hp IH|x y l|l l' l'' H1 IH1 H2 IH2];
    intros Hnd.
  - reflexivity.
  - cbn [find]. destruct (category x =? TextCategory_value c)%string; [done|].
    apply IH. rewrite fmap_cons in Hnd. by apply NoDup_cons in Hnd as [_ ?].
  - cbn [find].
    destruct (category x =? TextCategory_value c)%string eqn:Hx,
             (category y =? TextCategory_value c)%string eqn:Hy; try done.
    apply String.eqb_eq in Hx, Hy.
    rewrite !fmap_cons in Hnd. apply NoDup_cons in Hnd as [Hnotin _].
    destruct Hnotin. rewrite Hy, <- Hx. by left.
  - rewrite IH1 by done. apply IH2. by rewrite <- H1.
Qed.

(** X9: when the raw list has at most one entry per category identifier,
    the order of its entries does not matter: every reordering of the list
    normalizes to the same results. *)
Theorem normalize_order_independent (l l' : list TextCategoriesAnalysis) :
  l ≡ₚ l' ->
  NoDup (category <$> l) ->
  normalize {| categories_analysis := l |} =
  normalize {| categories_analysis := l' |}.
Proof.
  intros Hp Hnd. unfold normalize. cbn [categories_analysis].
  by rewrite !(next_category_perm _ l l' Hp Hnd).
Qed.

Lemma normalize_order_independent_witness :
  normalize
    {| categories_analysis :=
         [ {| category := "Hate"; severity := Some 2 |};
           {| category := "Violence"; severity := Some 0 |} ] |} =
  normalize
    {| categories_analysis :=
         [ {| category := "Violence"; severity := Some 0 |};
           {| category := "Hate"; severity := Some 2 |} ] |}.
Proof.
  apply normalize_order_independent.
  - apply perm_swap.
  - cbn [fmap list_fmap category]. apply NoDup_cons.
    split; [|apply NoDup_singleton].
    intros H%list_elem_of_singleton. discriminate H.
Defined.

Lemma next_category_filter_known c l :
  next_category c (List.filter known_category l) = next_category c l.
Proof.
  unfold next_category. induction l as [|item l IH]; [reflexivity|].
  cbn [List.filter find].
  destruct (category item =? TextCategory_value c)%string eqn:Heq.
  - apply String.eqb_eq in Heq.
    rewrite (known_category_value item c Heq). cbn [find].
    apply String.eqb_eq in Heq. by rewrite Heq.
  - destruct (known_category item); [|exact IH].
    cbn [find]. by rewrite Heq.
Qed.

(** X10: entries whose category is none of the four are ignored: dropping
    them from the raw list does not change the normalized results. *)
Theorem normalize_ignores_other_categories l :
  normalize {| categories_analysis := List.filter known_category l |} =
  normalize {| categories_analysis := l |}.
Proof.
  unfold normalize. cbn [categories_analysis].
  by rewrite !next_category_filter_known.
Qed.

(** X11: the first entry of a category wins.  Entries that come later in
    the raw list never change a key that the earlier entries already
    produced: the results of a list are contained in the results of the
    list followed by any further entries. *)
Theorem normalize_first_entry_wins l l' :
  normalize {| categories_analysis := l |} ⊆
  normalize {| categories_analysis := (l ++ l')%list |}.
Proof.
  apply map_subseteq_spec. intros key v Hl.
  destruct (normalize_lookup_Some _ key v Hl) as (c & _ & -> & _).
  rewrite normalize_lookup in Hl |- *. cbn [categories_analysis] in Hl |- *.
  rewrite next_category_app.
  by destruct (next_category c l).
Qed.

(** X12: the results are empty exactly when the raw list has no entry of
    any of the four categories; in particular an empty list gives [{}]. *)
Theorem normalize_empty_iff response :
  normalize response = ∅ <->
  Forall (fun item => known_category item = false)
    (categories_analysis response).
Proof.
  rewrite List.Forall_forall. split.
  - intros Hempty item Hin.
    destruct (known_category item) eqn:Hk; [|done].
    apply known_category_inv in Hk as [c Hc].
    assert (Hn : normalize response !! result_key c = None)
      by (by rewrite Hempty, lookup_empty).
    rewrite normalize_lookup, fmap_None, next_category_None in Hn.
    by destruct (Hn item Hin).
  - intros Hall. apply map_empty. intros key.
    destruct (normalize response !! key) as [v|] eqn:Hl; [|done].
    destruct (normalize_lookup_Some _ key v Hl)
      as (c & item & _ & Hin & Hc & _).
    pose proof (Hall item Hin) as Hk.
    by rewrite (known_category_value item c Hc) in Hk.
Qed.

(** ** More on the diagnostics *)

Lemma str_take_prefix n s : String.prefix (str_take n s) s = true.
Proof.
  unfold str_take. revert s. induction n as [|n IH]; intros [|a s]; try done.
  cbn [substring String.prefix]. rewrite IH.
  by destruct (ascii_dec a a).
Qed.

Lemma str_take_length n s :
  String.length (str_take n s) = Nat.min n (String.length s).
Proof.
  unfold str_take. revert s. induction n as [|n IH]; intros [|a s]; try done.
  cbn [substring String.length Nat.min]. by rewrite IH.
Qed.

Lemma str_truthy_ne s : s <> "" -> str_truthy s = true.
Proof. by destruct s. Qed.

(** X13: for a key that is set and non-empty, the key line of the
    moderation path and the key line of the banner both show [key[:5]],
    which is a prefix of the key of length [min(5, len(key))]: never more
    than five characters of the secret are printed. *)
Theorem key_lines_show_bounded_prefix w text k :
  environ w !! "CONTENT_SAFETY_KEY" = Some k ->
  k <> "" ->
  In (Print ("API Key (first 5 chars): " +:+ str_take 5 k))
     (printed (analyze_content_safety w text)) /\
  In (Print ("CONTENT_SAFETY_KEY: " +:+ str_take 5 k +:+ "... (truncated)"))
     (printed (startup_banner (environ w))) /\
  String.prefix (str_take 5 k) k = true /\
  String.length (str_take 5 k) = Nat.min 5 (String.length k).
Proof.
  fold KEY. intros Hk Hne. split; [|split; [|split]].
  - rewrite printed_analyze, Hk. left.
    unfold key_shown. by rewrite (str_truthy_ne k Hne).
  - rewrite printed_banner, Hk. right. left. reflexivity.
  - apply str_take_prefix.
  - apply str_take_length.
Qed.

Lemma key_lines_show_bounded_prefix_witness :
  In (Print ("API Key (first 5 chars): " +:+ str_take 5 "0123456789abcdef"))
     (printed (analyze_content_safety success_world (PStr "hello"))) /\
  In (Print ("CONTENT_SAFETY_KEY: " +:+ str_take 5 "0123456789abcdef"
             +:+ "... (truncated)"))
     (printed (startup_banner (environ success_world))) /\
  String.prefix (str_take 5 "0123456789abcdef") "0123456789abcdef" = true /\
  String.length (str_take 5 "0123456789abcdef") =
    Nat.min 5 (String.length "0123456789abcdef").
Proof.
  apply (key_lines_show_bounded_prefix success_world (PStr "hello")).
  - reflexivity.
  - discriminate.
Defined.

(** X14: a key that is unset or empty shows differently in the two places.
    The moderation path prints the placeholder [Not found]; the banner
    applies [[:5]] to its own placeholder and prints [Not f... (truncated)]
    for an unset key, and nothing before the dots for an empty one. *)
Theorem missing_key_in_diagnostics w text :
  unset_or_empty (environ w !! "CONTENT_SAFETY_KEY") ->
  In (Print "API Key (first 5 chars): Not found")
     (printed (analyze_content_safety w text)) /\
  In (Print (match environ w !! "CONTENT_SAFETY_KEY" with
             | None => "CONTENT_SAFETY_KEY: Not f... (truncated)"
             | Some _ => "CONTENT_SAFETY_KEY: ... (truncated)"
             end))
     (printed (startup_banner (environ w))).
Proof.
  fold KEY. intros [Hk|Hk]; rewrite printed_analyze, printed_banner, Hk;
    (split; [left|right; left]); reflexivity.
Qed.

Lemma missing_key_in_diagnostics_witness :
  In (Print "API Key (first 5 chars): Not found")
     (printed (analyze_content_safety unconfigured_world (PStr "hello"))) /\
  In (Print (match environ unconfigured_world !! "CONTENT_SAFETY_KEY" with
             | None => "CONTENT_SAFETY_KEY: Not f... (truncated)"
             | Some _ => "CONTENT_SAFETY_KEY: ... (truncated)"
             end))
     (printed (startup_banner (environ unconfigured_world))).
Proof.
  apply (missing_key_in_diagnostics unconfigured_world (PStr "hello")).
  left. reflexivity.
Defined.
